(** * User accounts and authentication: controllers/auth.js and routes/auth.js

    A shallow embedding of the Express controllers of the account service
    and of the route table that guards them, with the user collection as a
    finite map from ids to stored fields.  The handlers are transcribed
    from [src/controllers/auth.js], the route chains from
    [src/routes/auth.js].  The Mongoose model (models/User.js) and the
    middleware (middleware/auth.js) are not part of the sources at hand and
    are modelled from the specification; each such definition says so. *)

From Stdlib Require Import ZArith.
From stdpp Require Import base option strings list gmap pretty.

Open Scope Z_scope.
Open Scope string_scope.

(** ** JSON values and JavaScript truthiness *)

(** The scalar values a parsed JSON body can hold.  A key that is absent
    from a body reads as [undefined], which is [None] here. *)
Inductive jsval :=
  | JNull
  | JBool (b : bool)
  | JNum (n : Z)
  | JStr (s : string).

Global Instance jsval_eq_dec : EqDecision jsval.
Proof. solve_decision. Defined.

(** [!v] is false exactly on truthy values. *)
Definition truthy (v : option jsval) : bool :=
  match v with
  | None => false
  | Some JNull => false
  | Some (JBool b) => b
  | Some (JNum n) => negb (Z.eqb n 0)
  | Some (JStr s) => negb (String.eqb s "")
  end.

Definition is_string (v : option jsval) : bool :=
  match v with
  | Some (JStr _) => true
  | _ => false
  end.

(** The cast a string-typed schema path applies to an incoming value:
    strings are kept, numbers and booleans are printed, null is refused. *)
Definition castString (v : jsval) : option string :=
  match v with
  | JStr s => Some s
  | JNum n => Some (pretty n)
  | JBool b => Some (if b then "true" else "false")
  | JNull => None
  end.

Abbreviation Body := (gmap string jsval).
Abbreviation Fields := (gmap string string).

(** ** Documents, errors, tokens *)

(** A user document as a handler holds it: its id, the values of its
    paths, and whether a pending assignment failed to cast (such a
    document is refused by [save]). *)
Record Document := mkDocument {
  doc_id : string;
  doc_fields : Fields;
  doc_invalid : bool
}.

Global Instance Document_eq_dec : EqDecision Document.
Proof. solve_decision. Defined.

(** What [res.json] serialises of a document. *)
Definition toJSON (d : Document) : string * Fields := (doc_id d, doc_fields d).

(** A thrown JavaScript error.  [err_keyValue] is the [keyValue] property,
    which only a duplicate-key error of the store carries. *)
Record JsError := mkError {
  err_name : string;
  err_keyValue : option Body
}.

Definition TypeError : JsError := mkError "TypeError" None.
Definition ValidationError : JsError := mkError "ValidationError" None.
Definition CastError : JsError := mkError "CastError" None.
Definition DocumentNotFoundError : JsError := mkError "DocumentNotFoundError" None.
Definition DuplicateKey (path : string) (v : string) : JsError :=
  mkError "MongoServerError" (Some {[ path := JStr v ]}).

Record Token := mkToken {
  tok_id : string;
  tok_exp : Z;
  tok_sig : string
}.

Global Instance Token_eq_dec : EqDecision Token.
Proof. solve_decision. Defined.

Inductive CookieValue :=
  | CVToken (t : Token)
  | CVText (s : string).

Record Cookie := mkCookie {
  c_name : string;
  c_value : CookieValue;
  c_expires : Z;
  c_httpOnly : bool;
  c_secure : bool
}.

(** ** Requests and responses *)

Record Request := mkRequest {
  params_id : string;            (* req.params.id *)
  body : Body;                   (* req.body *)
  credential : option CookieValue; (* the token cookie or bearer header *)
  user : option Document         (* req.user, attached by protect *)
}.

Inductive Data :=
  | DEmpty                                  (* {} *)
  | DUser (u : option (string * Fields))    (* a document, or null *)
  | DUsers (us : list (string * Fields)).

(** The JSON objects the controllers send. *)
Inductive Payload :=
  | PFail                                   (* { success: false } *)
  | PFailMsg (msg : string)                 (* { success: false, msg } *)
  | PFailMessage (message : string)         (* { success: false, message } *)
  | PData (data : Data)                     (* { success: true, data } *)
  | PToken (_id : string) (name email role : option string) (token : Token).

Record Response := mkResponse {
  status : Z;
  cookie : option Cookie;
  json : Payload
}.

Definition respond (code : Z) (p : Payload) : Response := mkResponse code None p.

(** The failure kinds of the access-control gate. *)
Inductive AuthError :=
  | MissingToken
  | Invalid
  | Expired
  | UserGone
  | Forbidden.

(** How a request ends: a response was written, the gate refused it, or
    the handler's promise rejected without writing a response. *)
Inductive Outcome :=
  | Responded (r : Response)
  | Denied (e : AuthError)
  | Unhandled (e : JsError).

(** ** The environment of a request *)

Inductive Call :=
  | CCreate
  | CFindOne
  | CFindById
  | CFind
  | CSave
  | CFindByIdAndUpdate
  | CRemove
  | CSign.

Record ProcessEnv := mkEnv {
  JWT_SECRET : string;
  JWT_EXPIRE : Z;
  JWT_COOKIE_EXPIRE : Z;
  NODE_ENV : string
}.

(** Everything a request reads from outside the collection: the clock, the
    salt drawn for this request, the id the store generates, the process
    environment, and which store calls fail for reasons the model does not
    derive from the data (outage, malformed id, further validators). *)
Record World := mkWorld {
  now : Z;
  salt : string;
  fresh_id : string;
  env : ProcessEnv;
  fault : Call -> option JsError
}.

(** The external hashing and signing libraries. *)
Class Crypto := {
  bcrypt_hash : string -> string -> string;     (* salt, secret *)
  bcrypt_compare : string -> string -> bool;    (* secret, stored hash *)
  jwt_sign : string -> string -> Z -> string    (* key, subject, expiry *)
}.

(** ** Asynchronous computations over the collection *)

Abbreviation Store := (gmap string Fields).

(** An awaited call runs against the collection and resolves or rejects. *)
Definition Async (A : Type) : Type := Store -> Store * (JsError + A).

Definition ret {A} (a : A) : Async A := fun st => (st, inr a).
Definition throw {A} (e : JsError) : Async A := fun st => (st, inl e).
Definition bind {A B} (m : Async A) (k : A -> Async B) : Async B :=
  fun st =>
    match m st with
    | (st', inl e) => (st', inl e)
    | (st', inr a) => k a st'
    end.
Definition try_catch {A} (m : Async A) (h : JsError -> Async A) : Async A :=
  fun st =>
    match m st with
    | (st', inl e) => h e st'
    | r => r
    end.
Definition get_store : Async Store := fun st => (st, inr st).
Definition put_store (st' : Store) : Async unit := fun _ => (st', inr tt).

Notation "'await' x <- m ; k" := (bind m (fun x => k))
  (at level 10, x name, m at level 100, k at level 200).
Notation "'run' m ; k" := (bind m (fun _ => k))
  (at level 10, m at level 100, k at level 200).

(** The end of a request handler: its response, or an unhandled rejection. *)
Definition finish (r : Store * (JsError + Response)) : Outcome * Store :=
  match r with
  | (st, inr resp) => (Responded resp, st)
  | (st, inl e) => (Unhandled e, st)
  end.

(** ** The user model *)

Section Model.
Context {crypto : Crypto} (w : World).

(** A store call that the environment makes fail rejects with its error. *)
Definition faulty (c : Call) : Async unit :=
  match fault w c with
  | Some e => throw e
  | None => ret tt
  end.

(** Modelled from the spec: models/User.js is not among the sources.  The
    paths of a user record (section 3): name, email, tel, role, password
    and the creation time; all are kept as strings. *)
Definition schema_paths : list string :=
  ["name"; "email"; "tel"; "role"; "password"; "createdAt"].

(** Modelled from the spec: the role enumeration of models/User.js,
    [user | admin] (section 3). *)
Definition roles : list string := ["user"; "admin"].

(** The own properties of [b] among [keys] (an object literal built from
    destructured properties; the strict schema dropping unknown keys). *)
Definition pick (keys : list string) (b : Body) : Body :=
  filter (fun kv => kv.1 ∈ keys) b.

(** The schema paths of a body, cast to their stored form; a value that
    does not cast is left out and reported by [cast_ok]. *)
Definition castBody (b : Body) : Fields := omap castString (pick schema_paths b).

Definition cast_ok (b : Body) : bool :=
  forallb (fun p => match b !! p with
                    | Some v => bool_decide (is_Some (castString v))
                    | None => true
                    end) schema_paths.

(** The id of a stored document cannot be changed by an update. *)
Definition id_ok (id : string) (b : Body) : bool :=
  match b !! "_id" with
  | Some v => bool_decide (v = JStr id)
  | None => true
  end.

Definition role_ok (f : Fields) : bool :=
  match f !! "role" with
  | Some r => bool_decide (r ∈ roles)
  | None => true
  end.

(** Modelled from the spec: the unique index on email (section 3, "email
    is unique across all records").  The email of [f] when a document
    other than [self] already holds it. *)
Definition email_taken (st : Store) (self : option string) (f : Fields) : option string :=
  match f !! "email" with
  | Some e =>
      if existsb (fun '(i, g) => bool_decide (Some i ≠ self ∧ g !! "email" = Some e))
                 (map_to_list st)
      then Some e else None
  | None => None
  end.

(** Modelled from the spec: the pre-save hook of models/User.js, which
    replaces a raw password by its salted hash before it is persisted
    (sections 3 and 4.1). *)
Definition pre_save (f : Fields) : Fields :=
  match f !! "password" with
  | Some raw => <["password" := bcrypt_hash (salt w) raw]> f
  | None => f
  end.

(** The password path is not selected by default: [login] asks for it
    with [select("+password")], the other reads do not see it. *)
Definition fetched (i : string) (f : Fields) : Document :=
  mkDocument i (delete "password" f) false.

(** Modelled from the spec: the repository operations of the Mongoose
    model (glossary, "create/find/update/delete by id or unique field"). *)
Definition findById (id : string) : Async (option Document) :=
  run faulty CFindById;
  await st <- get_store;
  ret (fetched id <$> st !! id).

Definition findOne_email_with_password (email : jsval) : Async (option Document) :=
  run faulty CFindOne;
  match castString email with
  | None => throw CastError
  | Some e =>
      await st <- get_store;
      ret ((fun '(i, f) => mkDocument i f false) <$>
           List.find (fun '(i, f) => bool_decide (f !! "email" = Some e)) (map_to_list st))
  end.

Definition find : Async (list Document) :=
  run faulty CFind;
  await st <- get_store;
  ret ((fun '(i, f) => fetched i f) <$> map_to_list st).

Definition create (b : Body) : Async Document :=
  run faulty CCreate;
  let f := castBody b in
  if negb (cast_ok b) then throw ValidationError else
  if negb (forallb (fun p => bool_decide (is_Some (f !! p))) ["name"; "email"; "tel"; "password"])
  then throw ValidationError else
  let f := match f !! "role" with Some _ => f | None => <["role" := "user"]> f end in
  if negb (role_ok f) then throw ValidationError else
  let f := match f !! "createdAt" with Some _ => f | None => <["createdAt" := pretty (now w)]> f end in
  let f := pre_save f in
  await st <- get_store;
  match email_taken st None f with
  | Some e => throw (DuplicateKey "email" e)
  | None =>
      match st !! fresh_id w with
      | Some _ => throw (DuplicateKey "_id" (fresh_id w))
      | None =>
          run put_store (<[fresh_id w := f]> st);
          ret (mkDocument (fresh_id w) f false)
      end
  end.

(** [Object.assign(user, body)] on a document: every schema path of the
    body is set through its cast; a failed cast invalidates the document. *)
Definition Object_assign (u : Document) (b : Body) : Document :=
  mkDocument (doc_id u) (castBody b ∪ doc_fields u)
             (doc_invalid u || negb (cast_ok b) || negb (id_ok (doc_id u) b)).

Definition save (u : Document) : Async Document :=
  run faulty CSave;
  if doc_invalid u then throw ValidationError else
  if negb (role_ok (doc_fields u)) then throw ValidationError else
  let f := pre_save (doc_fields u) in
  await st <- get_store;
  match st !! doc_id u with
  | None => throw DocumentNotFoundError
  | Some old =>
      match email_taken st (Some (doc_id u)) f with
      | Some e => throw (DuplicateKey "email" e)
      | None =>
          run put_store (<[doc_id u := f ∪ old]> st);
          ret (mkDocument (doc_id u) f false)
      end
  end.

Definition findByIdAndUpdate (id : string) (b : Body) : Async (option Document) :=
  run faulty CFindByIdAndUpdate;
  let f := castBody b in
  if negb (cast_ok b) then throw CastError else
  if negb (id_ok id b) then throw (mkError "MongoServerError" None) else
  if negb (role_ok f) then throw ValidationError else
  await st <- get_store;
  match st !! id with
  | None => ret None
  | Some old =>
      match email_taken st (Some id) f with
      | Some e => throw (DuplicateKey "email" e)
      | None =>
          run put_store (<[id := f ∪ old]> st);
          ret (Some (fetched id (f ∪ old)))
      end
  end.

Definition remove (u : Document) : Async unit :=
  run faulty CRemove;
  await st <- get_store;
  put_store (delete (doc_id u) st).

(** Modelled from the spec: the credential verifier of models/User.js
    (section 4.1): a boolean for a string secret, a [ValidationError] for a
    secret that is not a string. *)
Definition matchPassword (u : Document) (entered : option jsval) : Async bool :=
  match entered with
  | Some (JStr s) =>
      ret (match doc_fields u !! "password" with
           | Some h => bcrypt_compare s h
           | None => false
           end)
  | _ => throw ValidationError
  end.

(** Modelled from the spec: the session token issuer of models/User.js
    (section 4.2): the user id and an expiry of issuance time plus the
    configured lifetime, signed with the server's key. *)
Definition getSignedJwtToken (u : Document) : Async Token :=
  run faulty CSign;
  let exp := now w + JWT_EXPIRE (env w) in
  ret (mkToken (doc_id u) exp (jwt_sign (JWT_SECRET (env w)) (doc_id u) exp)).

(** Modelled from the spec: token verification (section 4.2): the
    signature is checked, then that the current time is before the expiry. *)
Definition verifyToken (t : Token) : AuthError + string :=
  if bool_decide (tok_sig t = jwt_sign (JWT_SECRET (env w)) (tok_id t) (tok_exp t))
  then if Z.ltb (now w) (tok_exp t) then inr (tok_id t) else inl Expired
  else inl Invalid.

(** ** The access-control gate *)

Inductive Step :=
  | Next (req : Request)
  | Stop (o : Outcome).

(** Modelled from the spec: [protect] of middleware/auth.js (section 4.3,
    check 1): the token is taken from the credential channel and verified,
    and the current record of its subject is fetched from the repository
    and attached to the request. *)
Definition protect (st : Store) (req : Request) : Step :=
  match credential req with
  | None => Stop (Denied MissingToken)
  | Some (CVText _) => Stop (Denied Invalid)
  | Some (CVToken t) =>
      match verifyToken t with
      | inl e => Stop (Denied e)
      | inr uid =>
          match st !! uid with
          | None => Stop (Denied UserGone)
          | Some f =>
              Next (mkRequest (params_id req) (body req) (credential req)
                              (Some (fetched uid f)))
          end
      end
  end.

(** Modelled from the spec: [authorize] of middleware/auth.js (section
    4.3, check 2): the current role of the attached record must be one of
    the allowed roles. *)
Definition authorize (allowed : list string) (st : Store) (req : Request) : Step :=
  match user req with
  | None => Stop (Unhandled TypeError)
  | Some u =>
      match doc_fields u !! "role" with
      | Some r => if bool_decide (r ∈ allowed) then Next req else Stop (Denied Forbidden)
      | None => Stop (Denied Forbidden)
      end
  end.

End Model.

(** ** controllers/auth.js *)

Section Controllers.
Context {crypto : Crypto} (w : World).

(** [req.user.id] and [req.user.role]; reading a property of an undefined
    [req.user] throws. *)
Definition req_user (req : Request) : Async Document :=
  match user req with
  | Some u => ret u
  | None => throw TypeError
  end.

Definition sendTokenResponse (u : Document) (statusCode : Z) : Async Response :=
  await token <- getSignedJwtToken w u;
  let options :=
    mkCookie "token" (CVToken token)
             (now w + JWT_COOKIE_EXPIRE (env w) * 24 * 60 * 60 * 1000)
             true
             (bool_decide (NODE_ENV (env w) = "production")) in
  ret (mkResponse statusCode (Some options)
         (PToken (doc_id u)
                 (doc_fields u !! "name")
                 (doc_fields u !! "email")
                 (doc_fields u !! "role")
                 token)).

(** [const { name, email, tel, password, role } = req.body] and the object
    literal handed to [User.create]. *)
Definition register_body (req : Request) : Body :=
  pick ["name"; "email"; "tel"; "password"; "role"] (body req).

Definition register (req : Request) : Async Response :=
  try_catch
    (await u <- create w (register_body req);
     sendTokenResponse u 200)
    (fun err =>
       match err_keyValue err with
       | None => throw TypeError          (* err.keyValue.email on undefined *)
       | Some kv =>
           ret (respond 400
                  (PFailMessage (if truthy (kv !! "email")
                                 then "Email already exists"
                                 else "Cannot create User")))
       end).

Definition login (req : Request) : Async Response :=
  try_catch
    (let email := body req !! "email" in
     let password := body req !! "password" in
     if negb (truthy email) || negb (truthy password) then
       ret (respond 400 (PFailMsg "Please provide an email and password"))
     else
       await u <- findOne_email_with_password w (default JNull email);
       match u with
       | None => ret (respond 400 (PFailMsg "Invalid credentials"))
       | Some u =>
           await isMatch <- matchPassword u password;
           if negb isMatch then
             ret (respond 401 (PFailMsg "Invalid credentials"))
           else sendTokenResponse u 200
       end)
    (fun _ => ret (respond 401 (PFailMsg "Cannot convert email or password to string"))).

Definition getMe (req : Request) : Async Response :=
  await me <- req_user req;
  await u <- findById w (doc_id me);
  ret (respond 200 (PData (DUser (toJSON <$> u)))).

Definition logout (req : Request) : Async Response :=
  ret (mkResponse 200
         (Some (mkCookie "token" (CVText "none") (now w + 10 * 1000) true false))
         (PData DEmpty)).

Definition getUsers (req : Request) : Async Response :=
  try_catch
    (await users <- find w;
     ret (respond 200 (PData (DUsers (toJSON <$> users)))))
    (fun _ => ret (respond 500 (PFailMessage "Cannot find User"))).

Definition getUser (req : Request) : Async Response :=
  try_catch
    (await u <- findById w (params_id req);
     match u with
     | None =>
         ret (respond 404 (PFailMessage ("No user with the id of " +:+ params_id req)))
     | Some u => ret (respond 200 (PData (DUser (Some (toJSON u)))))
     end)
    (fun _ => ret (respond 500 (PFailMessage "Cannot find User"))).

(** The ownership-or-admin test shared by update and delete:
    [req.params.id !== req.user.id && req.user.role !== "admin"]. *)
Definition not_owner_nor_admin (req : Request) (me : Document) : bool :=
  bool_decide (params_id req ≠ doc_id me) &&
  bool_decide (doc_fields me !! "role" ≠ Some "admin").

Definition updateUser (req : Request) : Async Response :=
  try_catch
    (await u <- findById w (params_id req);
     match u with
     | None => ret (respond 400 PFail)
     | Some u =>
         await me <- req_user req;
         if not_owner_nor_admin req me then
           ret (respond 401
                  (PFailMessage ("User " +:+ doc_id me +:+
                                 " is not authorized to update this user")))
         else if truthy (body req !! "password") then
           (* Object.assign(user, req.body); await user.save() *)
           await u' <- save w (Object_assign u (body req));
           ret (respond 200 (PData (DUser (Some (toJSON u')))))
         else
           (* the result of findByIdAndUpdate is not used *)
           await _ <- findByIdAndUpdate w (params_id req) (body req);
           ret (respond 200 (PData (DUser (Some (toJSON u)))))
     end)
    (fun _ => ret (respond 400 PFail)).

Definition deleteUser (req : Request) : Async Response :=
  try_catch
    (await u <- findById w (params_id req);
     match u with
     | None =>
         ret (respond 404 (PFailMessage ("No user with the id of " +:+ params_id req)))
     | Some u =>
         await me <- req_user req;
         if not_owner_nor_admin req me then
           ret (respond 401
                  (PFailMessage ("User " +:+ doc_id me +:+
                                 " is not authorized to delete this user")))
         else
           run remove w u;
           ret (respond 200 (PData DEmpty))
     end)
    (fun _ => ret (respond 500 (PFailMessage "Cannot delete User"))).

(** The fields a successful [updateUser] writes over the stored ones
    [old], and the document it answers with: with a truthy password in the
    body, the saved document; otherwise the cast body is written and the
    document fetched before the update is answered. *)
Definition written (req : Request) (old : Fields) : Fields :=
  if truthy (body req !! "password")
  then pre_save w (castBody (body req) ∪ delete "password" old)
  else castBody (body req).

Definition answered (req : Request) (old : Fields) : string * Fields :=
  if truthy (body req !! "password")
  then (params_id req, pre_save w (castBody (body req) ∪ delete "password" old))
  else (params_id req, delete "password" old).

(** ** routes/auth.js *)

Inductive Route :=
  | POST_register
  | POST_login
  | GET_logout
  | GET_me
  | GET_users
  | GET_user
  | PUT_user
  | DELETE_user.

Definition Middleware : Type := Store -> Request -> Step.
Definition Handler : Type := Request -> Async Response.

(** The middleware chain and the controller mounted on each route. *)
Definition router (r : Route) : list Middleware * Handler :=
  match r with
  | POST_register => ([], register)
  | POST_login => ([], login)
  | GET_logout => ([], logout)
  | GET_me => ([protect w], getMe)
  | GET_users => ([protect w; authorize ["admin"]], getUsers)
  | GET_user => ([protect w; authorize ["admin"; "user"]], getUser)
  | PUT_user => ([protect w; authorize ["admin"; "user"]], updateUser)
  | DELETE_user => ([protect w; authorize ["admin"]], deleteUser)
  end.

(** Express runs the chain in order; a middleware that does not call
    [next] ends the request, and the controller runs on the request the
    chain hands over. *)
Fixpoint run_chain (chain : list Middleware) (st : Store) (req : Request) : Step :=
  match chain with
  | [] => Next req
  | m :: chain' =>
      match m st req with
      | Next req' => run_chain chain' st req'
      | Stop o => Stop o
      end
  end.

Definition dispatch (chain : list Middleware) (h : Handler)
    (st : Store) (req : Request) : Outcome * Store :=
  match run_chain chain st req with
  | Next req' => finish (h req' st)
  | Stop o => (o, st)
  end.

Definition handle (r : Route) (st : Store) (req : Request) : Outcome * Store :=
  dispatch (router r).1 (router r).2 st req.

(** The protected routes are those mounted behind [protect], and the
    roles a route asks for are the arguments of its [authorize], if any. *)
Definition protected (r : Route) : bool :=
  match r with
  | POST_register | POST_login | GET_logout => false
  | GET_me | GET_users | GET_user | PUT_user | DELETE_user => true
  end.

Definition required_roles (r : Route) : option (list string) :=
  match r with
  | GET_users | DELETE_user => Some ["admin"]
  | GET_user | PUT_user => Some ["admin"; "user"]
  | POST_register | POST_login | GET_logout | GET_me => None
  end.

(** Whether a record whose role reads [role] may pass the chain of [r]. *)
Definition permits (r : Route) (role : option string) : bool :=
  match required_roles r with
  | None => true
  | Some allowed =>
      match role with
      | Some x => bool_decide (x ∈ allowed)
      | None => false
      end
  end.

End Controllers.

(** Unfolds the monad and the repository calls of a handler run. *)
Ltac unfold_async :=
  unfold try_catch, bind, ret, throw, get_store, put_store, faulty, finish in *.
Ltac unfold_repo :=
  unfold findById, findByIdAndUpdate, save, remove, find, create,
         findOne_email_with_password, matchPassword, getSignedJwtToken,
         req_user in *.

(** ** A sample deployment

    A small collection and environment on which the handlers are run. *)

Module Sample.

Definition crypto : Crypto :=
  {| bcrypt_hash := fun s p => s +:+ ":" +:+ p;
     bcrypt_compare := fun p h => bool_decide (h = "s0:" +:+ p);
     jwt_sign := fun k s e => k +:+ "." +:+ s +:+ "." +:+ pretty e |}.

Definition env0 : ProcessEnv := mkEnv "key" 1000 30 "development".

(** No store call fails. *)
Definition w0 : World := mkWorld 5000 "s0" "u9" env0 (fun _ => None).

(** The store is unreachable: every call to it rejects. *)
Definition w_down : World :=
  mkWorld 5000 "s0" "u9" env0 (fun _ => Some (mkError "MongoNetworkError" None)).

(** A later instant, within the lifetime of a token issued at [w0]. *)
Definition w1 : World := mkWorld 5500 "s1" "u10" env0 (fun _ => None).

Definition alice : Fields :=
  {[ "name" := "Alice"; "email" := "alice@x.io"; "tel" := "0811";
     "role" := "user"; "password" := "s0:pw-alice" ]}.
Definition bob : Fields :=
  {[ "name" := "Bob"; "email" := "bob@x.io"; "tel" := "0822";
     "role" := "user"; "password" := "s0:pw-bob" ]}.
Definition root : Fields :=
  {[ "name" := "Root"; "email" := "root@x.io"; "tel" := "0800";
     "role" := "admin"; "password" := "s0:pw-root" ]}.

Definition st0 : Store := {[ "u1" := alice; "u2" := bob; "a1" := root ]}.

(** The token [getSignedJwtToken] issues to user [i] at [w0]. *)
Definition token_of (i : string) : Token :=
  mkToken i 6000 (@jwt_sign crypto "key" i 6000).

(** A request on target [id] with body [b], presenting the token of [i]. *)
Definition request (id : string) (b : Body) (i : string) : Request :=
  mkRequest id b (Some (CVToken (token_of i))) None.

(** The same request once [protect] has attached the record of [i]. *)
Definition attached (id : string) (b : Body) (i : string) (f : Fields) : Request :=
  mkRequest id b (Some (CVToken (token_of i))) (Some (fetched i f)).

(** An unauthenticated request carrying only a body. *)
Definition anonymous (b : Body) : Request := mkRequest "" b None None.

End Sample.

(** ** Facts about casts, hooks and the monad *)

Section Facts.
Context {crypto : Crypto}.

Lemma castBody_lookup (b : Body) (k : string) :
  castBody b !! k =
  if decide (k ∈ schema_paths) then b !! k ≫= castString else None.
Proof.
  unfold castBody, pick. rewrite lookup_omap, map_lookup_filter.
  destruct (b !! k) as [v|] eqn:Hk; simpl.
  - unfold guard. destruct (decide (k ∈ schema_paths)); done.
  - by destruct (decide (k ∈ schema_paths)).
Qed.

Lemma castBody_absent (b : Body) (k : string) :
  b !! k = None -> castBody b !! k = None.
Proof. intros Hk. rewrite castBody_lookup, Hk. by case_decide. Qed.

Lemma cast_ok_lookup (b : Body) (k : string) (v : jsval) :
  cast_ok b = true -> k ∈ schema_paths -> b !! k = Some v ->
  is_Some (castString v).
Proof.
  unfold cast_ok. rewrite forallb_forall. intros Hall Hin Hk.
  specialize (Hall k). rewrite Hk in Hall.
  eapply bool_decide_eq_true_1, Hall. by apply list_elem_of_In.
Qed.

Lemma pre_save_lookup_ne (w : World) (f : Fields) (k : string) :
  k ≠ "password" -> pre_save w f !! k = f !! k.
Proof.
  intros Hk. unfold pre_save. destruct (f !! "password"); [|done].
  by rewrite lookup_insert_ne.
Qed.

Lemma pre_save_password (w : World) (f : Fields) :
  pre_save w f !! "password" = bcrypt_hash (salt w) <$> f !! "password".
Proof.
  unfold pre_save. destruct (f !! "password") eqn:Hp; simpl; [|done].
  by rewrite lookup_insert_eq.
Qed.

Lemma truthy_is_Some (v : option jsval) : truthy v = true -> is_Some v.
Proof. destruct v; [eauto | discriminate]. Qed.

End Facts.

(** ** Update: existence is tested before ownership *)

Section UpdateOrder.
Context {crypto : Crypto} (w : World).

Lemma updateUser_missing (st : Store) (req : Request) :
  st !! params_id req = None ->
  finish (updateUser w req st) = (Responded (respond 400 PFail), st).
Proof.
  intros Hnone. unfold updateUser. unfold_repo. unfold_async.
  destruct (fault w CFindById); simpl; rewrite ?Hnone; done.
Qed.

Lemma updateUser_401_exists (st st' : Store) (req : Request) (resp : Response) :
  finish (updateUser w req st) = (Responded resp, st') ->
  status resp = 401 ->
  is_Some (st !! params_id req).
Proof.
  intros Hrun Hst.
  destruct (st !! params_id req) eqn:Hid; [eauto|].
  rewrite (updateUser_missing _ _ Hid) in Hrun.
  by simplify_eq.
Qed.

(** C10: [updateUser] looks the target up before it tests ownership or
    role.  When the target id resolves to no record the answer is the bare
    400 failure, whoever the requester is (any [req.user], any fault of the
    store); and an answer of status 401 is only given when the target
    record exists. *)
Theorem updateUser_existence_before_authorization (st : Store) (req : Request) :
  (st !! params_id req = None ->
   finish (updateUser w req st) = (Responded (respond 400 PFail), st)) /\
  (forall resp st',
     finish (updateUser w req st) = (Responded resp, st') ->
     status resp = 401 ->
     is_Some (st !! params_id req)).
Proof.
  split.
  - apply updateUser_missing.
  - intros resp st'. apply updateUser_401_exists.
Qed.

End UpdateOrder.

Lemma updateUser_existence_before_authorization_witness :
  Sample.st0 !! "u7" = None /\
  finish (updateUser (crypto := Sample.crypto) Sample.w0
            (Sample.attached "u7" {[ "name" := JStr "Eve" ]} "u1" Sample.alice)
            Sample.st0)
  = (Responded (respond 400 PFail), Sample.st0).
Proof.
  split; [reflexivity|].
  apply (updateUser_existence_before_authorization (crypto := Sample.crypto)).
  reflexivity.
Defined.

(** ** Delete: a missing target *)

Section DeleteMissing.
Context (w : World).

(** C7: when the target id of [deleteUser] resolves to no record (the
    lookup succeeds and finds nothing), the answer is 404 with the id echoed
    in the message, [remove] is not called and the collection is unchanged. *)
Theorem deleteUser_missing_not_found (st : Store) (req : Request) :
  fault w CFindById = None ->
  st !! params_id req = None ->
  finish (deleteUser w req st) =
  (Responded (respond 404 (PFailMessage ("No user with the id of " +:+ params_id req))),
   st).
Proof.
  intros Hok Hnone. unfold deleteUser. unfold_repo. unfold_async.
  rewrite Hok. simpl. by rewrite Hnone.
Qed.

End DeleteMissing.

Lemma deleteUser_missing_not_found_witness :
  fault Sample.w0 CFindById = None /\
  Sample.st0 !! "u7" = None /\
  finish (deleteUser Sample.w0
            (Sample.attached "u7" ∅ "a1" Sample.root) Sample.st0)
  = (Responded (respond 404 (PFailMessage "No user with the id of u7")), Sample.st0).
Proof.
  split; [reflexivity|]. split; [reflexivity|].
  apply deleteUser_missing_not_found; reflexivity.
Defined.

(** ** Update: what is written and what is answered *)

Section UpdateEffect.
Context {crypto : Crypto} (w : World).

(** Every run of [updateUser] either leaves the collection as it was and
    answers with a failure, or finds the target, writes [written] over its
    stored fields and answers 200 with [answered]. *)
Lemma updateUser_cases (st : Store) (req : Request) :
  (exists resp,
     finish (updateUser w req st) = (Responded resp, st) /\ status resp <> 200) \/
  (exists old,
     st !! params_id req = Some old /\
     cast_ok (body req) = true /\
     finish (updateUser w req st) =
     (Responded (respond 200 (PData (DUser (Some (answered w req old))))),
      <[params_id req := written w req old ∪ old]> st)).
Proof.
  unfold updateUser, answered, written. unfold_repo. unfold_async.
  destruct (fault w CFindById); simpl; [left; eexists; split; [done|done]|].
  destruct (st !! params_id req) as [old|] eqn:Hold; simpl;
    [|left; eexists; split; [done|done]].
  destruct (user req) as [me|]; simpl; [|left; eexists; split; [done|done]].
  destruct (not_owner_nor_admin req me); simpl; [left; eexists; split; [done|done]|].
  destruct (truthy (body req !! "password")) eqn:Hpw; simpl.
  - destruct (fault w CSave); simpl; [left; eexists; split; [done|done]|].
    destruct (cast_ok (body req)) eqn:Hcast; simpl;
      [|left; eexists; split; [done|done]].
    destruct (id_ok (params_id req) (body req)); simpl;
      [|left; eexists; split; [done|done]].
    destruct (role_ok _); simpl; [|left; eexists; split; [done|done]].
    rewrite Hold.
    destruct (email_taken _ _ _); simpl; [left; eexists; split; [done|done]|].
    right. exists old. done.
  - destruct (fault w CFindByIdAndUpdate); simpl; [left; eexists; split; [done|done]|].
    destruct (cast_ok (body req)) eqn:Hcast; simpl;
      [|left; eexists; split; [done|done]].
    destruct (id_ok (params_id req) (body req)); simpl;
      [|left; eexists; split; [done|done]].
    destruct (role_ok _); simpl; [|left; eexists; split; [done|done]].
    rewrite Hold.
    destruct (email_taken _ _ _); simpl; [left; eexists; split; [done|done]|].
    right. exists old. done.
Qed.

End UpdateEffect.

Section UpdateTheorems.
Context {crypto : Crypto} (w : World).

Lemma written_absent (req : Request) (old : Fields) (k : string) :
  body req !! k = None ->
  (written w req old ∪ old) !! k = old !! k.
Proof.
  intros Hk. unfold written.
  destruct (truthy (body req !! "password")) eqn:Hpw.
  - assert (k ≠ "password") as Hne.
    { intros ->. rewrite Hk in Hpw. discriminate. }
    rewrite lookup_union, pre_save_lookup_ne by done.
    rewrite lookup_union, castBody_absent by done.
    rewrite lookup_delete_ne by done.
    by destruct (old !! k).
  - by rewrite lookup_union_r by by apply castBody_absent.
Qed.

Lemma written_present (req : Request) (old : Fields) (k : string) (v : jsval) (s : string) :
  k ∈ schema_paths -> body req !! k = Some v -> castString v = Some s ->
  (written w req old ∪ old) !! k =
  Some (if bool_decide (k = "password") && truthy (Some v)
        then bcrypt_hash (salt w) s else s).
Proof.
  intros Hin Hk Hs.
  assert (castBody (body req) !! k = Some s) as Hc.
  { rewrite castBody_lookup, Hk. by rewrite decide_True by done. }
  apply lookup_union_Some_l. unfold written.
  destruct (decide (k = "password")) as [->|Hne].
  - rewrite Hk. rewrite bool_decide_eq_true_2 by done.
    destruct (truthy (Some v)); simpl; [|done].
    rewrite pre_save_password. by erewrite lookup_union_Some_l.
  - rewrite bool_decide_eq_false_2 by done. simpl.
    destruct (truthy (body req !! "password")); simpl; [|done].
    rewrite pre_save_lookup_ne by done. by apply lookup_union_Some_l.
Qed.

(** C6: whatever [updateUser] answers, a field that is absent from the
    request body keeps its stored value in every existing record (the
    target included). *)
Theorem updateUser_frame (st st' : Store) (req : Request) (o : Outcome)
    (id : string) (f : Fields) (k : string) :
  finish (updateUser w req st) = (o, st') ->
  st !! id = Some f ->
  body req !! k = None ->
  exists f', st' !! id = Some f' /\ f' !! k = f !! k.
Proof.
  intros Hrun Hid Hk.
  destruct (updateUser_cases w st req) as [(resp & Hr & _)|(old & Hold & _ & Hr)];
    rewrite Hr in Hrun; simplify_eq.
  - eauto.
  - destruct (decide (params_id req = id)) as [<-|Hne].
    + rewrite lookup_insert_eq. eexists; split; [done|].
      simplify_eq. by apply written_absent.
    + rewrite lookup_insert_ne by done. eauto.
Qed.

(** Through the route the frame is the same: the gate writes nothing. *)
Lemma PUT_user_dispatch (st : Store) (req : Request) :
  (exists e, handle w PUT_user st req = (e, st) /\
             forall r, e <> Responded r) \/
  (exists req', body req' = body req /\ params_id req' = params_id req /\
                handle w PUT_user st req = finish (updateUser w req' st)).
Proof.
  unfold handle, dispatch; simpl. unfold protect, authorize.
  destruct (credential req) as [[t|s]|]; [|left; eexists; split; done..].
  destruct (verifyToken w t) as [e|uid]; [left; eexists; split; done|].
  destruct (st !! uid) as [f|]; [|left; eexists; split; done].
  simpl. destruct (delete "password" f !! "role") as [r|];
    [|left; eexists; split; done].
  destruct (bool_decide _); [|left; eexists; split; done].
  right. eexists. split; [|split]; [| |reflexivity]; done.
Qed.

(** C9: [updateUser] writes every schema field of the body, none is held
    back: after an answer of status 200 the stored record holds, for each
    such field, the cast of the submitted value (hashed, for a truthy
    password).  In particular the body [{ role: "admin" }], sent through
    the PUT route by a user of role [user] on their own id, is answered 200
    and leaves the stored role [admin]. *)
Theorem updateUser_writes_any_field :
  (forall (st st' : Store) (req : Request) (resp : Response) (k : string) (v : jsval),
     finish (updateUser w req st) = (Responded resp, st') ->
     status resp = 200 ->
     k ∈ schema_paths ->
     body req !! k = Some v ->
     exists s f',
       castString v = Some s /\
       st' !! params_id req = Some f' /\
       f' !! k = Some (if bool_decide (k = "password") && truthy (Some v)
                       then bcrypt_hash (salt w) s else s)) /\
  (forall (st : Store) (t : Token) (uid : string) (f : Fields),
     verifyToken w t = inr uid ->
     st !! uid = Some f ->
     f !! "role" = Some "user" ->
     fault w CFindById = None ->
     fault w CFindByIdAndUpdate = None ->
     exists resp st',
       handle w PUT_user st
         (mkRequest uid {[ "role" := JStr "admin" ]} (Some (CVToken t)) None)
       = (Responded resp, st') /\
       status resp = 200 /\
       st' !! uid = Some (<["role" := "admin"]> f)).
Proof.
  split.
  - intros st st' req resp k v Hrun Hst Hin Hk.
    destruct (updateUser_cases w st req) as [(r & Hr & Hne)|(old & Hold & Hcast & Hr)];
      rewrite Hr in Hrun; simplify_eq.
    destruct (cast_ok_lookup _ _ _ Hcast Hin Hk) as [s Hs].
    exists s. eexists. split; [done|]. split; [apply lookup_insert_eq|].
    by apply written_present.
  - intros st t uid f Htok Hid Hrole Hf1 Hf2.
    unfold handle, dispatch; simpl. unfold protect, authorize; simpl.
    rewrite Htok, Hid. simpl.
    rewrite lookup_delete_ne, Hrole by done. simpl.
    unfold updateUser. unfold_repo. unfold_async. simpl.
    rewrite Hf1. simpl. rewrite Hid. simpl.
    unfold not_owner_nor_admin. simpl.
    rewrite (bool_decide_eq_false_2 (uid ≠ uid)) by (intros Hne; by apply Hne).
    simpl. rewrite lookup_singleton_ne by done. simpl.
    rewrite Hf2. simpl.
    replace (cast_ok {[ "role" := JStr "admin" ]}) with true by by vm_compute.
    replace (castBody {[ "role" := JStr "admin" ]})
      with ({[ "role" := "admin" ]} : Fields) by by vm_compute.
    simpl. unfold id_ok. rewrite lookup_singleton_ne by done. simpl.
    replace (role_ok {[ "role" := "admin" ]}) with true by by vm_compute.
    simpl. rewrite Hid.
    unfold email_taken. rewrite lookup_singleton_ne by done.
    eexists _, _. split; [reflexivity|]. split; [done|].
    rewrite lookup_insert_eq. by rewrite insert_union_singleton_l.
Qed.

End UpdateTheorems.

Lemma updateUser_frame_witness :
  exists f',
    (finish (updateUser (crypto := Sample.crypto) Sample.w0
               (Sample.attached "u1" {[ "name" := JStr "Al" ]} "u1" Sample.alice)
               Sample.st0)).2 !! "u1" = Some f' /\
    f' !! "email" = Sample.alice !! "email".
Proof.
  eapply (updateUser_frame (crypto := Sample.crypto) Sample.w0 Sample.st0 _
            (Sample.attached "u1" {[ "name" := JStr "Al" ]} "u1" Sample.alice)
            _ "u1" Sample.alice "email").
  - apply surjective_pairing.
  - reflexivity.
  - reflexivity.
Defined.

Lemma updateUser_writes_any_field_witness :
  exists resp st',
    handle (crypto := Sample.crypto) Sample.w0 PUT_user Sample.st0
      (mkRequest "u1" {[ "role" := JStr "admin" ]}
                 (Some (CVToken (Sample.token_of "u1"))) None)
    = (Responded resp, st') /\
    status resp = 200 /\
    st' !! "u1" = Some (<["role" := "admin"]> Sample.alice).
Proof.
  apply (proj2 (updateUser_writes_any_field (crypto := Sample.crypto) Sample.w0)
           Sample.st0 (Sample.token_of "u1") "u1" Sample.alice);
    reflexivity.
Defined.

(** ** Update: the answer after a write without password *)

Section UpdateAnswer.
Context {crypto : Crypto} (w : World).

(** Without a truthy password in the body, a successful [updateUser]
    answers with the document as it was fetched, before the write. *)
Lemma updateUser_answers_fetched (st st' : Store) (req : Request)
    (resp : Response) (old : Fields) :
  truthy (body req !! "password") = false ->
  st !! params_id req = Some old ->
  finish (updateUser w req st) = (Responded resp, st') ->
  status resp = 200 ->
  json resp = PData (DUser (Some (toJSON (fetched (params_id req) old)))) /\
  st' !! params_id req = Some (castBody (body req) ∪ old).
Proof.
  intros Hpw Hold Hrun Hst.
  destruct (updateUser_cases w st req) as [(r & Hr & Hne)|(old' & Hold' & _ & Hr)];
    rewrite Hr in Hrun; simplify_eq.
  unfold answered, written. rewrite Hpw. simpl.
  by rewrite lookup_insert_eq.
Qed.

(** With a truthy password the saved document is answered. *)
Lemma updateUser_answers_saved (st st' : Store) (req : Request)
    (resp : Response) (old : Fields) :
  truthy (body req !! "password") = true ->
  st !! params_id req = Some old ->
  finish (updateUser w req st) = (Responded resp, st') ->
  status resp = 200 ->
  exists f,
    json resp = PData (DUser (Some (params_id req, f))) /\
    st' !! params_id req = Some (f ∪ old).
Proof.
  intros Hpw Hold Hrun Hst.
  destruct (updateUser_cases w st req) as [(r & Hr & Hne)|(old' & Hold' & _ & Hr)];
    rewrite Hr in Hrun; simplify_eq.
  unfold answered, written. rewrite Hpw. simpl.
  eexists. split; [done|]. by rewrite lookup_insert_eq.
Qed.

End UpdateAnswer.

(** C4: a PUT of [{ name: "Al" }] by Alice on her own record is answered
    200 with the record as it was before the update (name "Alice"), while
    the stored record already carries the new name: the document returned
    by [findByIdAndUpdate] is dropped and the one fetched first is sent. *)
Theorem updateUser_answers_stale_record :
  exists resp st',
    handle (crypto := Sample.crypto) Sample.w0 PUT_user Sample.st0
      (Sample.request "u1" {[ "name" := JStr "Al" ]} "u1")
    = (Responded resp, st') /\
    status resp = 200 /\
    json resp = PData (DUser (Some ("u1", delete "password" Sample.alice))) /\
    delete "password" Sample.alice !! "name" = Some "Alice" /\
    st' !! "u1" = Some (<["name" := "Al"]> Sample.alice).
Proof.
  eexists _, _. split; [by vm_compute|].
  repeat split; by vm_compute.
Qed.

(** ** Delete: the route gate and the controller *)

Section DeleteGate.
Context {crypto : Crypto} (w : World).

(** The chain of the DELETE route lets a request through only when the
    current record of the token's subject has role [admin]. *)
Lemma DELETE_user_gate (st : Store) (req : Request) (t : Token)
    (uid : string) (f : Fields) :
  credential req = Some (CVToken t) ->
  verifyToken w t = inr uid ->
  st !! uid = Some f ->
  handle w DELETE_user st req =
  if bool_decide (f !! "role" = Some "admin")
  then finish (deleteUser w
                 (mkRequest (params_id req) (body req) (credential req)
                            (Some (fetched uid f))) st)
  else (Denied Forbidden, st).
Proof.
  intros Hc Htok Hid. unfold handle, dispatch; simpl.
  unfold protect, authorize. rewrite Hc, Htok, Hid. simpl.
  rewrite lookup_delete_ne by done.
  destruct (f !! "role") as [r|] eqn:Hr; simpl.
  - destruct (decide (r = "admin")) as [->|Hne].
    + rewrite (bool_decide_eq_true_2 (_ ∈ _)) by by apply list_elem_of_singleton.
      by rewrite bool_decide_eq_true_2 by done.
    + rewrite (bool_decide_eq_false_2 (_ ∈ _)) by by rewrite list_elem_of_singleton.
      by rewrite bool_decide_eq_false_2 by congruence.
  - done.
Qed.

(** The controller on its own accepts the owner as well as an admin. *)
Lemma deleteUser_owner_or_admin (st : Store) (req : Request)
    (me : Document) (f : Fields) :
  user req = Some me ->
  st !! params_id req = Some f ->
  fault w CFindById = None ->
  fault w CRemove = None ->
  params_id req = doc_id me \/ doc_fields me !! "role" = Some "admin" ->
  finish (deleteUser w req st) =
  (Responded (respond 200 (PData DEmpty)), delete (params_id req) st).
Proof.
  intros Hme Hid Hf1 Hf2 Hown. unfold deleteUser. unfold_repo. unfold_async.
  rewrite Hf1. simpl. rewrite Hid, Hme. simpl.
  assert (not_owner_nor_admin req me = false) as ->.
  { unfold not_owner_nor_admin. apply andb_false_iff.
    destruct Hown as [Ho|Ha]; [left|right];
      apply bool_decide_eq_false_2; by intros Hne. }
  by rewrite Hf2.
Qed.

End DeleteGate.

(** C1: Alice, of role [user], sends DELETE on her own id with her valid
    token.  The route chain [protect, authorize("admin")] refuses her with
    Forbidden and nothing is deleted; the controller, run on the very
    request the gate would have handed over, deletes the record and
    answers 200 with empty data. *)
Theorem DELETE_user_refuses_owner :
  Sample.alice !! "role" = Some "user" /\
  handle (crypto := Sample.crypto) Sample.w0 DELETE_user Sample.st0
    (Sample.request "u1" ∅ "u1")
  = (Denied Forbidden, Sample.st0) /\
  finish (deleteUser Sample.w0 (Sample.attached "u1" ∅ "u1" Sample.alice) Sample.st0)
  = (Responded (respond 200 (PData DEmpty)), delete "u1" Sample.st0).
Proof. repeat split; by vm_compute. Qed.

(** ** Login: the two failures of a credential *)

Section LoginFailures.
Context {crypto : Crypto} (w : World).

Lemma login_unknown_email (st : Store) (req : Request) (e : jsval) :
  body req !! "email" = Some e ->
  truthy (Some e) = true ->
  truthy (body req !! "password") = true ->
  findOne_email_with_password w e st = (st, inr None) ->
  finish (login w req st) =
  (Responded (respond 400 (PFailMsg "Invalid credentials")), st).
Proof.
  intros He Hte Htp Hfind. unfold login. unfold_async.
  rewrite He, Hte, Htp. simpl. by rewrite Hfind.
Qed.

Lemma login_wrong_password (st : Store) (req : Request) (e : jsval)
    (u : Document) (p h : string) :
  body req !! "email" = Some e ->
  truthy (Some e) = true ->
  body req !! "password" = Some (JStr p) ->
  p ≠ "" ->
  findOne_email_with_password w e st = (st, inr (Some u)) ->
  doc_fields u !! "password" = Some h ->
  bcrypt_compare p h = false ->
  finish (login w req st) =
  (Responded (respond 401 (PFailMsg "Invalid credentials")), st).
Proof.
  intros He Hte Hp Hne Hfind Hh Hcmp. unfold login. unfold_async.
  rewrite He, Hte, Hp. simpl.
  destruct (String.eqb_spec p "") as [->|_]; [done|]. simpl.
  rewrite Hfind. unfold matchPassword, ret. by rewrite Hh, Hcmp.
Qed.

End LoginFailures.

(** C2: on the sample collection, a login with an email nobody holds is
    answered 400 and a login with Alice's email and a wrong password is
    answered 401; the bodies are the same, the status codes are not. *)
Theorem login_failures_differ_in_status :
  exists r1 r2,
    handle (crypto := Sample.crypto) Sample.w0 POST_login Sample.st0
      (Sample.anonymous {[ "email" := JStr "nobody@x.io"; "password" := JStr "guess" ]})
    = (Responded r1, Sample.st0) /\
    handle (crypto := Sample.crypto) Sample.w0 POST_login Sample.st0
      (Sample.anonymous {[ "email" := JStr "alice@x.io"; "password" := JStr "guess" ]})
    = (Responded r2, Sample.st0) /\
    json r1 = PFailMsg "Invalid credentials" /\
    json r2 = PFailMsg "Invalid credentials" /\
    status r1 = 400 /\ status r2 = 401 /\
    r1 <> r2.
Proof.
  eexists _, _. split; [by vm_compute|]. split; [by vm_compute|].
  repeat split; done.
Qed.

(** ** Register: the error handler *)

Section RegisterErrors.
Context {crypto : Crypto} (w : World).

(** A duplicate-key error on a non-empty email is answered 400. *)
Lemma register_duplicate_email (st st1 : Store) (req : Request) (e : string) :
  create w (register_body req) st = (st1, inl (DuplicateKey "email" e)) ->
  e ≠ "" ->
  finish (register w req st) =
  (Responded (respond 400 (PFailMessage "Email already exists")), st1).
Proof.
  intros Hc Hne. unfold register, register_body in *. unfold_async.
  rewrite Hc. simpl. rewrite lookup_singleton_eq. simpl.
  by destruct (String.eqb_spec e "").
Qed.

(** An error that carries a [keyValue] without email gets the generic
    answer. *)
Lemma register_other_keyValue (st st1 : Store) (req : Request)
    (err : JsError) (kv : Body) :
  create w (register_body req) st = (st1, inl err) ->
  err_keyValue err = Some kv ->
  kv !! "email" = None ->
  finish (register w req st) =
  (Responded (respond 400 (PFailMessage "Cannot create User")), st1).
Proof.
  intros Hc Hkv He. unfold register, register_body in *. unfold_async.
  rewrite Hc. simpl. by rewrite Hkv, He.
Qed.

(** An error without [keyValue] makes the handler itself throw: no
    response is written. *)
Lemma register_error_without_keyValue (st st1 : Store) (req : Request)
    (err : JsError) :
  create w (register_body req) st = (st1, inl err) ->
  err_keyValue err = None ->
  finish (register w req st) = (Unhandled TypeError, st1).
Proof.
  intros Hc Hkv. unfold register, register_body in *. unfold_async.
  rewrite Hc. simpl. by rewrite Hkv.
Qed.

End RegisterErrors.

(** C5: a register request with an empty body fails validation in
    [create], and a complete one fails when the store is unreachable; in
    both cases the error has no [keyValue], reading [err.keyValue.email]
    throws inside the catch block, and the request ends without any
    response.  A register request with Alice's email is answered 400. *)
Theorem register_catch_throws_without_keyValue :
  handle (crypto := Sample.crypto) Sample.w0 POST_register Sample.st0
    (Sample.anonymous ∅)
  = (Unhandled TypeError, Sample.st0) /\
  handle (crypto := Sample.crypto) Sample.w_down POST_register Sample.st0
    (Sample.anonymous {[ "name" := JStr "Carol"; "email" := JStr "carol@x.io";
                         "tel" := JStr "0833"; "password" := JStr "pw-carol" ]})
  = (Unhandled TypeError, Sample.st0) /\
  handle (crypto := Sample.crypto) Sample.w0 POST_register Sample.st0
    (Sample.anonymous {[ "name" := JStr "Al"; "email" := JStr "alice@x.io";
                         "tel" := JStr "0844"; "password" := JStr "pw-al" ]})
  = (Responded (respond 400 (PFailMessage "Email already exists")), Sample.st0).
Proof. repeat split; by vm_compute. Qed.

(** ** Login: a secret that is not a string *)

Section LoginMalformed.
Context {crypto : Crypto} (w : World).

(** The verifier rejects every present secret that is not a string. *)
Lemma matchPassword_not_string (u : Document) (p : option jsval) (st : Store) :
  is_string p = false ->
  matchPassword u p st = (st, inl ValidationError).
Proof. intros Hp. unfold matchPassword. by destruct p as [[]|]. Qed.

(** C8, as amended: when the email of a login request resolves to a
    record and the submitted secret is truthy but not a string, the
    credential verifier rejects with a [ValidationError] and [login]
    answers 401 with the message "Cannot convert email or password to
    string", which is not the invalid-credentials answer. *)
Theorem login_malformed_secret (st : Store) (req : Request) (e : jsval)
    (u : Document) :
  body req !! "email" = Some e ->
  truthy (Some e) = true ->
  truthy (body req !! "password") = true ->
  is_string (body req !! "password") = false ->
  findOne_email_with_password w e st = (st, inr (Some u)) ->
  matchPassword u (body req !! "password") st = (st, inl ValidationError) /\
  finish (login w req st) =
  (Responded (respond 401 (PFailMsg "Cannot convert email or password to string")),
   st).
Proof.
  intros He Hte Htp Hs Hfind. split; [by apply matchPassword_not_string|].
  unfold login. unfold_async. rewrite He, Hte, Htp. simpl.
  rewrite Hfind. by rewrite matchPassword_not_string.
Qed.

End LoginMalformed.

Lemma login_malformed_secret_witness :
  let req := Sample.anonymous {[ "email" := JStr "alice@x.io"; "password" := JNum 123456 ]} in
  finish (login (crypto := Sample.crypto) Sample.w0 req Sample.st0) =
  (Responded (respond 401 (PFailMsg "Cannot convert email or password to string")),
   Sample.st0).
Proof.
  apply (login_malformed_secret (crypto := Sample.crypto) Sample.w0 Sample.st0
           (Sample.anonymous {[ "email" := JStr "alice@x.io"; "password" := JNum 123456 ]})
           (JStr "alice@x.io") (mkDocument "u1" Sample.alice false));
    reflexivity.
Defined.

(** C8, as stated, fails: a login whose secret is the number 123456 and
    whose email nobody holds is answered 400 "Invalid credentials", the
    very answer a well-formed wrong guess gets on the same email, and not
    the malformed-input answer. *)
Lemma login_malformed_secret_unknown_email :
  let req := Sample.anonymous {[ "email" := JStr "nobody@x.io"; "password" := JNum 123456 ]} in
  let guess := Sample.anonymous {[ "email" := JStr "nobody@x.io"; "password" := JStr "guess" ]} in
  is_string (body req !! "password") = false /\
  handle (crypto := Sample.crypto) Sample.w0 POST_login Sample.st0 req
  = (Responded (respond 400 (PFailMsg "Invalid credentials")), Sample.st0) /\
  handle (crypto := Sample.crypto) Sample.w0 POST_login Sample.st0 req
  = handle (crypto := Sample.crypto) Sample.w0 POST_login Sample.st0 guess /\
  ~ (forall (st : Store) (r : Request),
       is_string (body r !! "password") = false ->
       exists resp,
         finish (login (crypto := Sample.crypto) Sample.w0 r st) = (Responded resp, st) /\
         json resp = PFailMsg "Cannot convert email or password to string").
Proof.
  split; [reflexivity|]. split; [by vm_compute|]. split; [by vm_compute|].
  intros Hall.
  assert (is_string
            (body (Sample.anonymous
                     {[ "email" := JStr "nobody@x.io"; "password" := JNum 123456 ]})
             !! "password") = false) as Hs by reflexivity.
  destruct (Hall Sample.st0 _ Hs) as (resp & Hrun & Hjson).
  vm_compute in Hrun. by simplify_eq.
Qed.

(** ** The gate reads the role of the current record *)

Section CurrentRole.
Context {crypto : Crypto}.

(** A token issued for [u] verifies, under the same key and before its
    expiry, to the id of [u]. *)
Lemma verifyToken_issued (w_issue w_use : World) (u : Document) (t : Token)
    (st0 st0' : Store) :
  getSignedJwtToken w_issue u st0 = (st0', inr t) ->
  env w_use = env w_issue ->
  now w_use < tok_exp t ->
  verifyToken w_use t = inr (doc_id u).
Proof.
  intros Hsign Henv Hexp. unfold getSignedJwtToken in Hsign. unfold_async.
  destruct (fault w_issue CSign); simpl in *; simplify_eq.
  unfold verifyToken. simpl in *. rewrite Henv.
  rewrite bool_decide_eq_true_2 by done.
  by rewrite (proj2 (Z.ltb_lt _ _)) by done.
Qed.

(** C3: on every protected route, a request that presents a token issued
    earlier for [u] (same signing key, not yet expired) is decided on the
    role held by the record currently stored under the id of [u]: the chain
    hands over the request with that record attached when the route permits
    its role, and refuses with Forbidden otherwise.  The token carries an
    id, an expiry and a signature, and nothing of the record as it was at
    issuance enters the decision. *)
Theorem authorization_reads_current_role (w_issue w_use : World) (u : Document)
    (t : Token) (st0 st0' st : Store) (r : Route) (req : Request) (f : Fields) :
  getSignedJwtToken w_issue u st0 = (st0', inr t) ->
  env w_use = env w_issue ->
  now w_use < tok_exp t ->
  credential req = Some (CVToken t) ->
  st !! doc_id u = Some f ->
  protected r = true ->
  run_chain (router w_use r).1 st req =
  if permits r (f !! "role")
  then Next (mkRequest (params_id req) (body req) (credential req)
                       (Some (fetched (doc_id u) f)))
  else Stop (Denied Forbidden).
Proof.
  intros Hsign Henv Hexp Hc Hid Hprot.
  pose proof (verifyToken_issued _ _ _ _ _ _ Hsign Henv Hexp) as Hv.
  destruct r; try discriminate Hprot; simpl;
    unfold protect, authorize, permits; rewrite Hc, Hv, Hid; simpl;
    rewrite ?lookup_delete_ne by done;
    try done;
    destruct (f !! "role") as [x|]; simpl; try done;
    by destruct (bool_decide _).
Qed.

End CurrentRole.

Lemma authorization_reads_current_role_witness :
  let promoted : Store := <["u1" := <["role" := "admin"]> Sample.alice]> Sample.st0 in
  let req := Sample.request "" ∅ "u1" in
  run_chain (router (crypto := Sample.crypto) Sample.w1 GET_users).1 Sample.st0 req
  = Stop (Denied Forbidden) /\
  run_chain (router (crypto := Sample.crypto) Sample.w1 GET_users).1 promoted req
  = Next (mkRequest "" ∅ (credential req)
            (Some (fetched "u1" (<["role" := "admin"]> Sample.alice)))).
Proof.
  split.
  - apply (authorization_reads_current_role (crypto := Sample.crypto)
             Sample.w0 Sample.w1 (mkDocument "u1" Sample.alice false)
             (Sample.token_of "u1") Sample.st0 Sample.st0 Sample.st0
             GET_users (Sample.request "" ∅ "u1") Sample.alice);
      reflexivity.
  - etrans.
    + apply (authorization_reads_current_role (crypto := Sample.crypto)
               Sample.w0 Sample.w1 (mkDocument "u1" Sample.alice false)
               (Sample.token_of "u1") Sample.st0 Sample.st0
               (<["u1" := <["role" := "admin"]> Sample.alice]> Sample.st0)
               GET_users (Sample.request "" ∅ "u1")
               (<["role" := "admin"]> Sample.alice));
        reflexivity.
    + reflexivity.
Defined.
